(** * heap_useNewlib_NXP.c : newlib's malloc family under FreeRTOS

    A shallow embedding of [src/heap_useNewlib_NXP.c].  The C file keeps its
    state in file-level and function-level statics and calls into the
    FreeRTOS scheduler and into newlib; here the statics are the fields of
    one [State] record threaded through a small state monad whose results
    are either a returned value or a stop (the breakpoint loop of the
    hard-stop build, a failed [configASSERT]).

    The target is the 32-bit NXP Cortex-M: [int] is 32-bit two's
    complement, [char *] and [size_t] are 32-bit unsigned.  Every C
    arithmetic operation is written with its wrap-around. *)

From Stdlib Require Import ZArith List Bool Lia.
Import ListNotations.
Local Open Scope Z_scope.

(** ** Machine arithmetic of the ILP32 target *)

Module Machine.

Definition INT_MIN : Z := -2147483648.
Definition INT_MAX : Z := 2147483647.
Definition UINTPTR_MAX : Z := 4294967295.
Definition SIZE_MAX : Z := 4294967295.

(** Two's-complement reduction of a mathematical integer to an [int]. *)
Definition int_wrap (z : Z) : Z := (z + 2147483648) mod 4294967296 - 2147483648.

(** Reduction to a 32-bit unsigned value ([size_t], an address). *)
Definition uint_wrap (z : Z) : Z := z mod 4294967296.

Definition is_int (z : Z) : Prop := INT_MIN <= z <= INT_MAX.
Definition is_size (z : Z) : Prop := 0 <= z <= SIZE_MAX.

(** [a + b] and [a - b] on [int]. *)
Definition int_add (a b : Z) : Z := int_wrap (a + b).
Definition int_sub (a b : Z) : Z := int_wrap (a - b).

(** [p + i] for a [char *] p and an [int] i: byte-granular address
    arithmetic in the flat 32-bit address space. *)
Definition ptr_add (p i : Z) : Z := uint_wrap (p + i).

(** [a + b] on [size_t]. *)
Definition size_add (a b : Z) : Z := uint_wrap (a + b).

(** [(char * )-1], what a failing sbrk returns. *)
Definition SBRK_FAILED : Z := uint_wrap (-1).

(** [ENOMEM] of newlib's errno.h. *)
Definition ENOMEM : Z := 12.

End Machine.
Import Machine.

(** ** Build configuration and linker symbols *)

(** The preprocessor symbols the file tests.  [configUSE_MALLOC_FAILED_HOOK]
    is compared with [1] by [#if] (an undefined macro reads as [0]); the
    other two are tested with [defined] / [#ifndef]. *)
Record BuildConfig : Type := mkBuildConfig {
  configUSE_MALLOC_FAILED_HOOK : Z;
  configHARD_STOP_ON_MALLOC_FAILURE : bool;
  NDEBUG : bool
}.

(** [extern char __HeapBase, __HeapLimit, HEAP_SIZE;] -- only the addresses
    of these symbols are used; the record holds those addresses. *)
Record LinkerSymbols : Type := mkLinkerSymbols {
  __HeapBase : Z;
  __HeapLimit : Z;
  HEAP_SIZE : Z
}.

(** What the linker command file has to provide: a region inside the
    32-bit address space whose size symbol is "(&__HeapLimit)-(&__HeapBase)"
    (the comment next to [heapBytesRemaining]). *)
Definition linker_ok (ld : LinkerSymbols) : Prop :=
  0 <= __HeapBase ld /\ __HeapBase ld <= __HeapLimit ld /\
  __HeapLimit ld <= UINTPTR_MAX /\
  HEAP_SIZE ld = __HeapLimit ld - __HeapBase ld.

(** The region ends in the low 2 GiB of the address space (on-chip SRAM of
    the Cortex-M parts sits at 0x1FFF_0000 .. 0x3FFF_FFFF).  Then
    [currentHeapEnd + incr] with an [int] incr wraps only below address 0,
    and [limit - currentHeapEnd] always fits an [int]. *)
Definition low_half (ld : LinkerSymbols) : Prop := __HeapLimit ld <= INT_MAX.

(** ** Program state *)

Record State : Type := mkState {
  (* statics of this file *)
  currentHeapEnd : Z;             (* static char * inside _sbrk_r *)
  heapBytesRemaining : Z;         (* static int *)
  totalBytesProvidedBySBRK : Z;   (* static int, #ifndef NDEBUG *)
  TotalMallocdBytes : Z;          (* size_t *)
  MallocCallCnt : Z;              (* int *)
  inside_malloc : bool;           (* static bool *)
  (* collaborators *)
  uxSchedulerSuspended : nat;     (* FreeRTOS: nesting depth of vTaskSuspendAll *)
  insideInterrupt : bool;         (* port layer: what xPortIsInsideInterrupt reads *)
  reent_errno : Z -> Z;           (* newlib: _errno of each struct _reent *)
  _impure_ptr : Z;                (* newlib: the current struct _reent *)
  mallocFailedHookCalls : nat     (* application: calls of vApplicationMallocFailedHook *)
}.

Definition set_currentHeapEnd (v : Z) (s : State) : State :=
  mkState v (heapBytesRemaining s) (totalBytesProvidedBySBRK s)
          (TotalMallocdBytes s) (MallocCallCnt s) (inside_malloc s)
          (uxSchedulerSuspended s) (insideInterrupt s) (reent_errno s)
          (_impure_ptr s) (mallocFailedHookCalls s).

Definition set_heapBytesRemaining (v : Z) (s : State) : State :=
  mkState (currentHeapEnd s) v (totalBytesProvidedBySBRK s)
          (TotalMallocdBytes s) (MallocCallCnt s) (inside_malloc s)
          (uxSchedulerSuspended s) (insideInterrupt s) (reent_errno s)
          (_impure_ptr s) (mallocFailedHookCalls s).

Definition set_totalBytesProvidedBySBRK (v : Z) (s : State) : State :=
  mkState (currentHeapEnd s) (heapBytesRemaining s) v
          (TotalMallocdBytes s) (MallocCallCnt s) (inside_malloc s)
          (uxSchedulerSuspended s) (insideInterrupt s) (reent_errno s)
          (_impure_ptr s) (mallocFailedHookCalls s).

Definition set_TotalMallocdBytes (v : Z) (s : State) : State :=
  mkState (currentHeapEnd s) (heapBytesRemaining s) (totalBytesProvidedBySBRK s)
          v (MallocCallCnt s) (inside_malloc s)
          (uxSchedulerSuspended s) (insideInterrupt s) (reent_errno s)
          (_impure_ptr s) (mallocFailedHookCalls s).

Definition set_MallocCallCnt (v : Z) (s : State) : State :=
  mkState (currentHeapEnd s) (heapBytesRemaining s) (totalBytesProvidedBySBRK s)
          (TotalMallocdBytes s) v (inside_malloc s)
          (uxSchedulerSuspended s) (insideInterrupt s) (reent_errno s)
          (_impure_ptr s) (mallocFailedHookCalls s).

Definition set_inside_malloc (v : bool) (s : State) : State :=
  mkState (currentHeapEnd s) (heapBytesRemaining s) (totalBytesProvidedBySBRK s)
          (TotalMallocdBytes s) (MallocCallCnt s) v
          (uxSchedulerSuspended s) (insideInterrupt s) (reent_errno s)
          (_impure_ptr s) (mallocFailedHookCalls s).

Definition set_uxSchedulerSuspended (v : nat) (s : State) : State :=
  mkState (currentHeapEnd s) (heapBytesRemaining s) (totalBytesProvidedBySBRK s)
          (TotalMallocdBytes s) (MallocCallCnt s) (inside_malloc s)
          v (insideInterrupt s) (reent_errno s)
          (_impure_ptr s) (mallocFailedHookCalls s).

Definition set_insideInterrupt (v : bool) (s : State) : State :=
  mkState (currentHeapEnd s) (heapBytesRemaining s) (totalBytesProvidedBySBRK s)
          (TotalMallocdBytes s) (MallocCallCnt s) (inside_malloc s)
          (uxSchedulerSuspended s) v (reent_errno s)
          (_impure_ptr s) (mallocFailedHookCalls s).

Definition set_reent_errno (v : Z -> Z) (s : State) : State :=
  mkState (currentHeapEnd s) (heapBytesRemaining s) (totalBytesProvidedBySBRK s)
          (TotalMallocdBytes s) (MallocCallCnt s) (inside_malloc s)
          (uxSchedulerSuspended s) (insideInterrupt s) v
          (_impure_ptr s) (mallocFailedHookCalls s).

Definition set_mallocFailedHookCalls (v : nat) (s : State) : State :=
  mkState (currentHeapEnd s) (heapBytesRemaining s) (totalBytesProvidedBySBRK s)
          (TotalMallocdBytes s) (MallocCallCnt s) (inside_malloc s)
          (uxSchedulerSuspended s) (insideInterrupt s) (reent_errno s)
          (_impure_ptr s) v.

(** The statics as C initialises them: [currentHeapEnd = &__HeapBase],
    [heapBytesRemaining = (int)&HEAP_SIZE], everything else zero. *)
Definition initial_state (ld : LinkerSymbols) : State :=
  mkState (__HeapBase ld) (int_wrap (HEAP_SIZE ld)) 0 0 0 false
          O false (fun _ => 0) 0 O.

(** ** The monad: state, plus calls that never return *)

Inductive Halt : Type :=
| BreakpointLoop      (* while(1) { __asm("bkpt #0"); } *)
| AssertionFailure.   (* configASSERT on a false condition *)

Inductive Outcome (A : Type) : Type :=
| Returned (a : A)
| Stopped (h : Halt).
Arguments Returned {A} a.
Arguments Stopped {A} h.

Definition M (A : Type) : Type := State -> Outcome A * State.

Definition ret {A} (a : A) : M A := fun s => (Returned a, s).

Definition bind {A B} (m : M A) (f : A -> M B) : M B :=
  fun s => match m s with
           | (Returned a, s') => f a s'
           | (Stopped h, s') => (Stopped h, s')
           end.

Definition stop {A} (h : Halt) : M A := fun s => (Stopped h, s).
Definition gets {A} (f : State -> A) : M A := fun s => (Returned (f s), s).
Definition modify (f : State -> State) : M unit := fun s => (Returned tt, f s).

Notation "x <- m ;; k" := (bind m (fun x => k))
  (at level 61, m at next level, right associativity).
Notation "m ;; k" := (bind m (fun _ => k))
  (at level 61, right associativity).

Definition result {A} (r : Outcome A * State) : Outcome A := fst r.
Definition final {A} (r : Outcome A * State) : State := snd r.

(** ** Collaborators: scheduler, port layer, application hook *)

(** Modelled from the spec: [vTaskSuspendAll] and [xTaskResumeAll] belong
    to the FreeRTOS kernel (task.h), which is not among the sources.  The
    spec has them nestable: one raises a suspension depth, the other lowers
    it, and "resumption only takes full effect when the outermost nesting
    level releases"; the file's own comment says the same
    ("vTaskSuspendAll/xTaskResumeAll support nesting"). *)
Definition vTaskSuspendAll : M unit :=
  modify (fun s => set_uxSchedulerSuspended (S (uxSchedulerSuspended s)) s).

Definition xTaskResumeAll : M unit :=
  modify (fun s => set_uxSchedulerSuspended (Nat.pred (uxSchedulerSuspended s)) s).

(** Modelled from the spec: [xPortIsInsideInterrupt] is the port layer's
    "am I in interrupt context" query; it reads the execution context. *)
Definition xPortIsInsideInterrupt : M bool := gets insideInterrupt.

(** Modelled from the spec: [configASSERT] is a macro of FreeRTOS.h and
    FreeRTOSConfig.h, which are not among the sources.  The spec has a
    failed assertion fatal, never recoverable: the call does not return. *)
Definition configASSERT (x : bool) : M unit :=
  if x then ret tt else stop AssertionFailure.

(** Modelled from the spec: [vApplicationMallocFailedHook] is the
    application's "optional zero-argument callback ... invoked
    synchronously on extension failure".  The model counts its calls and
    lets it return without touching the heap. *)
Definition vApplicationMallocFailedHook : M unit :=
  modify (fun s => set_mallocFailedHookCalls (S (mallocFailedHookCalls s)) s).

(** [pReent->_errno = v]. *)
Definition store_errno (pReent v : Z) : M unit :=
  modify (fun s =>
    set_reent_errno (fun r => if r =? pReent then v else reent_errno s r) s).

(** ** sbrk and the newlib locks *)

Section Sbrk.

Variable ld : LinkerSymbols.
Variable cfg : BuildConfig.

(** The three preprocessor alternatives of the out-of-memory branch. *)
Definition out_of_memory (pReent : Z) : M unit :=
  if configUSE_MALLOC_FAILED_HOOK cfg =? 1 then
    vApplicationMallocFailedHook
  else if configHARD_STOP_ON_MALLOC_FAILURE cfg then
    stop BreakpointLoop
  else
    (store_errno pReent ENOMEM ;;
     xTaskResumeAll).

Definition _sbrk_r (pReent : Z) (incr : Z) : M Z :=
  vTaskSuspendAll ;;
  heapEnd <- gets currentHeapEnd ;;
  if ptr_add heapEnd incr >? __HeapLimit ld then
    (out_of_memory pReent ;;
     ret SBRK_FAILED)
  else
    (previousHeapEnd <- gets currentHeapEnd ;;
     modify (fun s => set_currentHeapEnd (ptr_add (currentHeapEnd s) incr) s) ;;
     modify (fun s => set_heapBytesRemaining (int_sub (heapBytesRemaining s) incr) s) ;;
     (if NDEBUG cfg then ret tt
      else modify (fun s =>
        set_totalBytesProvidedBySBRK (int_add (totalBytesProvidedBySBRK s) incr) s)) ;;
     xTaskResumeAll ;;
     ret previousHeapEnd).

(** [char * sbrk(int incr) { return _sbrk_r(_impure_ptr, incr); }] *)
Definition sbrk (incr : Z) : M Z :=
  reent <- gets _impure_ptr ;;
  _sbrk_r reent incr.

(** [char * _sbrk(int incr) { return sbrk(incr); }] *)
Definition _sbrk (incr : Z) : M Z := sbrk incr.

(** A client that issues heap-extension requests one after the other and
    collects what each call returned.  A call that never returns ends the
    run. *)
Fixpoint sbrk_requests (pReent : Z) (incrs : list Z) : M (list Z) :=
  match incrs with
  | [] => ret []
  | incr :: rest =>
      p <- _sbrk_r pReent incr ;;
      ps <- sbrk_requests pReent rest ;;
      ret (p :: ps)
  end.

End Sbrk.

Definition __malloc_lock (p : Z) : M unit :=
  inISR <- xPortIsInsideInterrupt ;;
  configASSERT (negb inISR) ;;
  vTaskSuspendAll.

Definition __malloc_unlock (p : Z) : M unit := xTaskResumeAll.

Definition __env_lock : M unit := vTaskSuspendAll.
Definition __env_unlock : M unit := xTaskResumeAll.

(** ** malloc accounting wrappers (linked with --wrap=malloc --wrap=_malloc_r) *)

Section MallocWrappers.

(** newlib's allocator proper, as the file declares it:
    [extern void * __real__malloc_r(size_t nbytes);] *)
Variable __real__malloc_r : Z -> M Z.

Definition count_request (nbytes : Z) : M unit :=
  modify (fun s => set_MallocCallCnt (int_add (MallocCallCnt s) 1) s) ;;
  modify (fun s => set_TotalMallocdBytes (size_add (TotalMallocdBytes s) nbytes) s).

Definition __wrap__malloc_r (reent : Z) (nbytes : Z) : M Z :=
  nested <- gets inside_malloc ;;
  (if negb nested then count_request nbytes else ret tt) ;;
  p <- __real__malloc_r nbytes ;;
  ret p.

(** newlib's [malloc(n)] is [_malloc_r(_REENT, n)]; with --wrap=_malloc_r
    that call lands in [__wrap__malloc_r] ("will call malloc_r..."). *)
Definition __real_malloc (nbytes : Z) : M Z :=
  reent <- gets _impure_ptr ;;
  __wrap__malloc_r reent nbytes.

Definition __wrap_malloc (nbytes : Z) : M Z :=
  count_request nbytes ;;
  modify (set_inside_malloc true) ;;
  p <- __real_malloc nbytes ;;
  modify (set_inside_malloc false) ;;
  ret p.

End MallocWrappers.

(** ** FreeRTOS memory API on top of newlib *)

(** The one field of newlib's [struct mallinfo] that is read. *)
Record Mallinfo : Type := mkMallinfo { fordblks : Z }.

Section PortApi.

(** newlib entry points the port functions forward to. *)
Variable malloc : Z -> M Z.
Variable free : Z -> M unit.
Variable mallinfo : State -> Mallinfo.

Definition pvPortMalloc (xSize : Z) : M Z :=
  p <- malloc xSize ;;
  ret p.

Definition vPortFree (pv : Z) : M unit := free pv.

(** [return mi.fordblks + heapBytesRemaining;] converted to [size_t]:
    whether the field is an [int] or a [size_t], the value returned is the
    sum reduced modulo 2^32. *)
Definition xPortGetFreeHeapSize : M Z :=
  fun s =>
    let mi := mallinfo s in
    ret (uint_wrap (fordblks mi + heapBytesRemaining s)) s.

Definition vPortInitialiseBlocks : M unit := ret tt.

End PortApi.

(** ** Concrete instances used to run the model *)

(** A 4096-byte region in on-chip SRAM. *)
Definition sram_4k : LinkerSymbols := mkLinkerSymbols 536870912 536875008 4096.

Definition default_build : BuildConfig := mkBuildConfig 0 false false.
Definition hook_build : BuildConfig := mkBuildConfig 1 false false.
Definition hard_stop_build : BuildConfig := mkBuildConfig 0 true false.

(** A bump allocator standing for newlib's [_malloc_r]: it asks sbrk for
    exactly the bytes requested and maps sbrk's failure value to NULL. *)
Definition bump_malloc_r (ld : LinkerSymbols) (cfg : BuildConfig) (nbytes : Z) : M Z :=
  p <- sbrk ld cfg nbytes ;;
  ret (if p =? SBRK_FAILED then 0 else p).

(** ** Vocabulary of the statements *)

(** The build takes the breakpoint loop on an exhausted heap: the hook is
    not selected and [configHARD_STOP_ON_MALLOC_FAILURE] is defined. *)
Definition hard_stop_selected (cfg : BuildConfig) : bool :=
  negb (configUSE_MALLOC_FAILED_HOOK cfg =? 1) && configHARD_STOP_ON_MALLOC_FAILURE cfg.

(** What the caller of a refused request observes. *)
Definition refusal (cfg : BuildConfig) : Outcome Z :=
  if hard_stop_selected cfg then Stopped BreakpointLoop else Returned SBRK_FAILED.

(** Sum of the increments of a request sequence. *)
Definition total (incrs : list Z) : Z := fold_right Z.add 0 incrs.

(** The heap end before each request, when every request of the sequence
    is granted starting at [start]. *)
Fixpoint previous_ends (start : Z) (incrs : list Z) : list Z :=
  match incrs with
  | [] => []
  | incr :: rest => start :: previous_ends (start + incr) rest
  end.

(** Served in order from [start], every request ends at an address between
    0 and [limit]: no running total exceeds the room left, and none takes
    the heap end below address 0. *)
Fixpoint all_fit (limit start : Z) (incrs : list Z) : Prop :=
  match incrs with
  | [] => True
  | incr :: rest => 0 <= start + incr <= limit /\ all_fit limit (start + incr) rest
  end.

(** The state between calls: the heap end lies between address 0 and the
    limit, and the counter is the room left. *)
Definition heap_inv (ld : LinkerSymbols) (s : State) : Prop :=
  0 <= currentHeapEnd s <= __HeapLimit ld /\
  heapBytesRemaining s = __HeapLimit ld - currentHeapEnd s.

(** An allocator that leaves the accounting variables of this file alone.
    newlib cannot name them: [inside_malloc] is static, the two counters
    are this file's own. *)
Definition keeps_accounting (alloc : Z -> M Z) : Prop :=
  forall (nbytes : Z) (s : State),
    MallocCallCnt (final (alloc nbytes s)) = MallocCallCnt s /\
    TotalMallocdBytes (final (alloc nbytes s)) = TotalMallocdBytes s /\
    inside_malloc (final (alloc nbytes s)) = inside_malloc s.

(** Closed arithmetic side conditions at concrete inputs. *)
Ltac by_evaluation := cbv; intuition (try discriminate; try reflexivity).

(** A 32 MiB region in external SDRAM at 0x8000_0000, above the low
    2 GiB of the address space. *)
Definition sdram_32m : LinkerSymbols :=
  mkLinkerSymbols 2147483648 2181038080 33554432.

(** ** Clients of the entry points *)

(** newlib's allocator around its call for more memory: "newlib malloc
    family routines call __malloc_lock before calling _sbrk_r", and release
    the lock afterwards. *)
Definition sbrk_under_malloc_lock (ld : LinkerSymbols) (cfg : BuildConfig)
    (reent incr : Z) : M Z :=
  __malloc_lock reent ;;
  p <- _sbrk_r ld cfg reent incr ;;
  __malloc_unlock reent ;;
  ret p.

(** An application that calls [pvPortMalloc] once per size of the list and
    collects the pointers.  A call that never returns ends the run. *)
Fixpoint pvPortMalloc_requests (malloc : Z -> M Z) (sizes : list Z) : M (list Z) :=
  match sizes with
  | [] => ret []
  | xSize :: rest =>
      p <- pvPortMalloc malloc xSize ;;
      ps <- pvPortMalloc_requests malloc rest ;;
      ret (p :: ps)
  end.

(** An allocator whose calls all return. *)
Definition always_returns (alloc : Z -> M Z) : Prop :=
  forall (nbytes : Z) (s : State), exists p, result (alloc nbytes s) = Returned p.

(** Unfolds the monad and the collaborators in a goal. *)
Ltac run_monad :=
  unfold out_of_memory, store_errno, vApplicationMallocFailedHook,
    vTaskSuspendAll, xTaskResumeAll, xPortIsInsideInterrupt, configASSERT,
    bind, gets, modify, ret, stop, result, final; simpl.

(** * Proofs *)

(** ** Facts about the machine arithmetic *)

Lemma int_wrap_id (z : Z) : is_int z -> int_wrap z = z.
Proof.
  unfold is_int, INT_MIN, INT_MAX, int_wrap; intros H.
  rewrite Z.mod_small; lia.
Qed.

Lemma uint_wrap_id (z : Z) : 0 <= z <= UINTPTR_MAX -> uint_wrap z = z.
Proof.
  unfold UINTPTR_MAX, uint_wrap; intros H.
  apply Z.mod_small; lia.
Qed.

Lemma uint_wrap_range (z : Z) : 0 <= uint_wrap z <= UINTPTR_MAX.
Proof.
  unfold UINTPTR_MAX, uint_wrap.
  pose proof (Z.mod_pos_bound z 4294967296); lia.
Qed.

(** An address sum that falls below address 0 comes back in the top half
    of the address space. *)
Lemma uint_wrap_below_zero (z : Z) :
  -2147483648 <= z < 0 -> uint_wrap z = z + 4294967296.
Proof.
  unfold uint_wrap; intros H.
  symmetry; apply (Z.mod_unique z 4294967296 (-1)); lia.
Qed.

(** Converting an [int] sum to [size_t] gives the sum modulo 2^32. *)
Lemma uint_wrap_int_wrap (z : Z) : uint_wrap (int_wrap z) = uint_wrap z.
Proof.
  unfold uint_wrap, int_wrap.
  rewrite <- Zminus_mod_idemp_l, Z.mod_mod by lia.
  rewrite Zminus_mod_idemp_l. f_equal; lia.
Qed.

(** In the low 2 GiB an end address computed from an [int] increment is
    accepted by the limit test exactly when the mathematical sum lies in
    [0, limit]. *)
Lemma ptr_add_low_half (limit p i : Z) :
  limit <= INT_MAX -> 0 <= p <= limit -> is_int i ->
  ptr_add p i <= limit -> ptr_add p i = p + i /\ 0 <= p + i.
Proof.
  unfold is_int, INT_MIN, INT_MAX, ptr_add; intros Hl Hp Hi Hle.
  destruct (Z_lt_le_dec (p + i) 0) as [Hneg | Hpos].
  - rewrite uint_wrap_below_zero in Hle by lia. lia.
  - rewrite uint_wrap_id by (unfold UINTPTR_MAX; lia). lia.
Qed.

(** ** One call of [_sbrk_r] *)

Section SbrkCall.

Variable ld : LinkerSymbols.
Variable cfg : BuildConfig.

Ltac run_sbrk :=
  unfold _sbrk_r, out_of_memory, refusal, hard_stop_selected, store_errno,
    vApplicationMallocFailedHook, vTaskSuspendAll, xTaskResumeAll,
    bind, gets, modify, ret, stop, result, final; simpl.

(** The refused branch: the heap statics keep their values. *)
Lemma sbrk_r_refused (pReent incr : Z) (s : State) :
  ptr_add (currentHeapEnd s) incr > __HeapLimit ld ->
  result (_sbrk_r ld cfg pReent incr s) = refusal cfg /\
  currentHeapEnd (final (_sbrk_r ld cfg pReent incr s)) = currentHeapEnd s /\
  heapBytesRemaining (final (_sbrk_r ld cfg pReent incr s)) = heapBytesRemaining s.
Proof.
  intros H. apply Z.gtb_gt in H. run_sbrk. rewrite H.
  destruct (configUSE_MALLOC_FAILED_HOOK cfg =? 1);
    destruct (configHARD_STOP_ON_MALLOC_FAILURE cfg); simpl; auto.
Qed.

(** The granted branch, in machine arithmetic. *)
Lemma sbrk_r_granted (pReent incr : Z) (s : State) :
  ptr_add (currentHeapEnd s) incr <= __HeapLimit ld ->
  result (_sbrk_r ld cfg pReent incr s) = Returned (currentHeapEnd s) /\
  currentHeapEnd (final (_sbrk_r ld cfg pReent incr s))
    = ptr_add (currentHeapEnd s) incr /\
  heapBytesRemaining (final (_sbrk_r ld cfg pReent incr s))
    = int_sub (heapBytesRemaining s) incr /\
  uxSchedulerSuspended (final (_sbrk_r ld cfg pReent incr s))
    = uxSchedulerSuspended s.
Proof.
  intros H. run_sbrk.
  destruct (ptr_add (currentHeapEnd s) incr >? __HeapLimit ld) eqn:E.
  - apply Z.gtb_gt in E. lia.
  - destruct (NDEBUG cfg); simpl; auto.
Qed.

(** No path of [_sbrk_r] touches the malloc accounting or the context. *)
Lemma sbrk_r_frame (pReent incr : Z) (s : State) :
  MallocCallCnt (final (_sbrk_r ld cfg pReent incr s)) = MallocCallCnt s /\
  TotalMallocdBytes (final (_sbrk_r ld cfg pReent incr s)) = TotalMallocdBytes s /\
  inside_malloc (final (_sbrk_r ld cfg pReent incr s)) = inside_malloc s.
Proof.
  run_sbrk.
  destruct (ptr_add (currentHeapEnd s) incr >? __HeapLimit ld);
    destruct (configUSE_MALLOC_FAILED_HOOK cfg =? 1);
    destruct (configHARD_STOP_ON_MALLOC_FAILURE cfg);
    destruct (NDEBUG cfg); simpl; auto.
Qed.

(** A granted call returns; only a refused call of the hard-stop build
    does not. *)
Lemma sbrk_r_returns (pReent incr : Z) (s : State) :
  hard_stop_selected cfg = false ->
  exists p, result (_sbrk_r ld cfg pReent incr s) = Returned p.
Proof.
  intros Hs.
  destruct (Z_le_gt_dec (ptr_add (currentHeapEnd s) incr) (__HeapLimit ld)) as [H | H].
  - exists (currentHeapEnd s). apply sbrk_r_granted; assumption.
  - exists SBRK_FAILED. destruct (sbrk_r_refused pReent incr s H) as [R _].
    rewrite R. unfold refusal. rewrite Hs. reflexivity.
Qed.

End SbrkCall.

(** ** Sequences of requests *)

Lemma total_app (xs ys : list Z) : total (xs ++ ys) = total xs + total ys.
Proof.
  induction xs as [| x xs IH]; simpl; [reflexivity | rewrite IH; lia].
Qed.

(** Non-negative requests whose sum fits the room left all fit. *)
Lemma nonneg_all_fit (limit : Z) (incrs : list Z) :
  forall start, 0 <= start ->
  Forall (fun incr => 0 <= incr) incrs ->
  start + total incrs <= limit ->
  all_fit limit start incrs.
Proof.
  induction incrs as [| d rest IH]; simpl; intros start Hs Hnn Hsum; [exact I |].
  inversion Hnn as [| ? ? Hd Hrest]; subst.
  assert (0 <= total rest).
  { clear - Hrest. induction Hrest; simpl; lia. }
  split; [lia |]. apply IH; [lia | assumption | lia].
Qed.

Section Requests.

Variable ld : LinkerSymbols.
Variable cfg : BuildConfig.
Variable pReent : Z.

Lemma sbrk_requests_cons (incr : Z) (rest : list Z) (s : State) :
  sbrk_requests ld cfg pReent (incr :: rest) s =
  match _sbrk_r ld cfg pReent incr s with
  | (Returned p, s1) =>
      match sbrk_requests ld cfg pReent rest s1 with
      | (Returned ps, s2) => (Returned (p :: ps), s2)
      | (Stopped h, s2) => (Stopped h, s2)
      end
  | (Stopped h, s1) => (Stopped h, s1)
  end.
Proof.
  simpl. unfold bind at 1.
  destruct (_sbrk_r ld cfg pReent incr s) as [[p | h] s1]; [| reflexivity].
  unfold bind, ret.
  destruct (sbrk_requests ld cfg pReent rest s1) as [[ps | h] s2]; reflexivity.
Qed.

(** A property of states kept by every single call is kept by every run. *)
Lemma sbrk_requests_invariant (P : State -> Prop) (incrs : list Z) :
  (forall incr s, In incr incrs -> P s -> P (final (_sbrk_r ld cfg pReent incr s))) ->
  forall s, P s -> P (final (sbrk_requests ld cfg pReent incrs s)).
Proof.
  induction incrs as [| d rest IH]; intros Hstep s Hs; [exact Hs |].
  rewrite sbrk_requests_cons.
  pose proof (Hstep d s (or_introl eq_refl) Hs) as H1.
  destruct (_sbrk_r ld cfg pReent d s) as [[p | h] s1]; simpl in H1; [| exact H1].
  assert (IH' : P (final (sbrk_requests ld cfg pReent rest s1))).
  { apply IH; [| exact H1]. intros incr s0 Hin. apply Hstep. right; exact Hin. }
  destruct (sbrk_requests ld cfg pReent rest s1) as [[ps | h] s2]; exact IH'.
Qed.

(** Requests that all fit are all granted, each returning the heap end it
    found. *)
Lemma requests_all_granted (incrs : list Z) :
  __HeapLimit ld <= UINTPTR_MAX ->
  forall s, all_fit (__HeapLimit ld) (currentHeapEnd s) incrs ->
  result (sbrk_requests ld cfg pReent incrs s)
    = Returned (previous_ends (currentHeapEnd s) incrs) /\
  currentHeapEnd (final (sbrk_requests ld cfg pReent incrs s))
    = currentHeapEnd s + total incrs.
Proof.
  intros Hlim. induction incrs as [| d rest IH]; intros s Hfit.
  - simpl. split; [reflexivity | lia].
  - destruct Hfit as [Hd Hrest]. rewrite sbrk_requests_cons.
    assert (Hadd : ptr_add (currentHeapEnd s) d = currentHeapEnd s + d).
    { apply uint_wrap_id. lia. }
    destruct (sbrk_r_granted ld cfg pReent d s) as (R & C & _); [lia |].
    rewrite Hadd in C.
    destruct (_sbrk_r ld cfg pReent d s) as [o s1]; unfold result, final in *;
      simpl in R, C; subst o.
    rewrite <- C in Hrest. destruct (IH s1 Hrest) as [R1 C1].
    destruct (sbrk_requests ld cfg pReent rest s1) as [o2 s2];
      unfold result, final in *; simpl in R1, C1; subst o2.
    simpl. rewrite C. split; [reflexivity | lia].
Qed.

Lemma heap_inv_initial : linker_ok ld -> low_half ld -> heap_inv ld (initial_state ld).
Proof.
  unfold linker_ok, low_half, heap_inv, INT_MAX, UINTPTR_MAX.
  intros (H0 & H1 & H2 & H3) Hl. simpl. split; [lia |].
  rewrite int_wrap_id; [lia |]. unfold is_int, INT_MIN, INT_MAX. lia.
Qed.

Lemma heap_inv_step (incr : Z) (s : State) :
  low_half ld -> is_int incr -> heap_inv ld s ->
  heap_inv ld (final (_sbrk_r ld cfg pReent incr s)).
Proof.
  unfold low_half, heap_inv. intros Hl Hi [Hc Hr].
  destruct (Z_le_gt_dec (ptr_add (currentHeapEnd s) incr) (__HeapLimit ld)) as [H | H].
  - destruct (ptr_add_low_half (__HeapLimit ld) (currentHeapEnd s) incr Hl Hc Hi H)
      as [Hadd Hpos].
    destruct (sbrk_r_granted ld cfg pReent incr s H) as (_ & C & R & _).
    rewrite C, R, Hadd. rewrite Hadd in H. unfold int_sub.
    rewrite int_wrap_id; [lia |].
    unfold is_int, INT_MIN, INT_MAX in *. lia.
  - destruct (sbrk_r_refused ld cfg pReent incr s H) as (_ & C & R).
    rewrite C, R. auto.
Qed.

Lemma heap_inv_requests (incrs : list Z) :
  linker_ok ld -> low_half ld -> Forall is_int incrs ->
  heap_inv ld (final (sbrk_requests ld cfg pReent incrs (initial_state ld))).
Proof.
  intros Hok Hl Hint.
  apply sbrk_requests_invariant with (P := heap_inv ld).
  - intros incr s Hin Hs. apply heap_inv_step; [exact Hl | | exact Hs].
    rewrite Forall_forall in Hint. apply Hint. exact Hin.
  - apply heap_inv_initial; assumption.
Qed.

End Requests.

(** ** The counter in int arithmetic, on any placement *)


Lemma int_wrap_minus_int_wrap (a b : Z) :
  int_wrap (int_wrap a - b) = int_wrap (a - b).
Proof.
  unfold int_wrap. f_equal.
  replace ((a + 2147483648) mod 4294967296 - 2147483648 - b + 2147483648)
    with ((a + 2147483648) mod 4294967296 + (- b)) by lia.
  rewrite Zplus_mod_idemp_l. f_equal. lia.
Qed.

Lemma int_wrap_minus_uint_wrap (a b : Z) :
  int_wrap (a - uint_wrap b) = int_wrap (a - b).
Proof.
  unfold int_wrap, uint_wrap. f_equal.
  replace (a - b mod 4294967296 + 2147483648)
    with ((a + 2147483648) - b mod 4294967296) by lia.
  rewrite Zminus_mod_idemp_r. f_equal. lia.
Qed.

(** Whatever the placement and the increments: the counter is the room
    left as an [int] computes it, and the heap end is an address at or
    below the limit. *)
Lemma room_left_int_requests (ld : LinkerSymbols) (cfg : BuildConfig)
    (pReent : Z) (incrs : list Z) :
  linker_ok ld ->
  let s := final (sbrk_requests ld cfg pReent incrs (initial_state ld)) in
  heapBytesRemaining s = int_wrap (__HeapLimit ld - currentHeapEnd s) /\
  0 <= currentHeapEnd s <= __HeapLimit ld.
Proof.
  intros (H0 & H1 & H2 & H3) s. subst s.
  apply (sbrk_requests_invariant ld cfg pReent
           (fun s => heapBytesRemaining s
                       = int_wrap (__HeapLimit ld - currentHeapEnd s) /\
                     0 <= currentHeapEnd s <= __HeapLimit ld)).
  - intros incr s _ [Hr Hc].
    destruct (Z_le_gt_dec (ptr_add (currentHeapEnd s) incr) (__HeapLimit ld)) as [H | H].
    + destruct (sbrk_r_granted ld cfg pReent incr s H) as (_ & C & B & _).
      rewrite C, B, Hr. unfold int_sub, ptr_add in *.
      rewrite int_wrap_minus_int_wrap, int_wrap_minus_uint_wrap.
      split; [f_equal; lia |].
      pose proof (uint_wrap_range (currentHeapEnd s + incr)). lia.
    + destruct (sbrk_r_refused ld cfg pReent incr s H) as (_ & C & B).
      rewrite C, B. auto.
  - simpl. split; [f_equal; lia | lia].
Qed.

(** * Heap extension: what a call does *)

(** C1.  A call [_sbrk_r(pReent, incr)] whose end address
    [currentHeapEnd + incr] does not exceed [&__HeapLimit] succeeds: it
    returns the previous heap end, advances [currentHeapEnd] by exactly
    [incr] and lowers [heapBytesRemaining] by exactly [incr]; it also leaves
    the scheduler's suspension depth as it found it.  The end address is an
    address (not below 0) and the new counter value is an [int], as C needs
    for the two updates to be defined. *)
Theorem sbrk_r_success (ld : LinkerSymbols) (cfg : BuildConfig)
    (pReent incr : Z) (s : State) :
  __HeapLimit ld <= UINTPTR_MAX ->
  0 <= currentHeapEnd s + incr ->
  currentHeapEnd s + incr <= __HeapLimit ld ->
  is_int (heapBytesRemaining s - incr) ->
  let r := _sbrk_r ld cfg pReent incr s in
  result r = Returned (currentHeapEnd s) /\
  currentHeapEnd (final r) = currentHeapEnd s + incr /\
  heapBytesRemaining (final r) = heapBytesRemaining s - incr /\
  uxSchedulerSuspended (final r) = uxSchedulerSuspended s.
Proof.
  intros Hlim Hpos Hfit Hrem r. subst r.
  assert (Hadd : ptr_add (currentHeapEnd s) incr = currentHeapEnd s + incr).
  { apply uint_wrap_id. lia. }
  destruct (sbrk_r_granted ld cfg pReent incr s) as (R & C & B & U); [lia |].
  rewrite R, C, B, U, Hadd. unfold int_sub. rewrite int_wrap_id by exact Hrem.
  auto.
Qed.

Lemma sbrk_r_success_witness :
  let r := _sbrk_r sram_4k default_build 0 100 (initial_state sram_4k) in
  result r = Returned 536870912 /\
  currentHeapEnd (final r) = 536871012 /\
  heapBytesRemaining (final r) = 3996 /\
  uxSchedulerSuspended (final r) = O.
Proof.
  apply (sbrk_r_success sram_4k default_build 0 100 (initial_state sram_4k));
    by_evaluation.
Defined.




(** C8.  Non-negative requests whose sum is at most the region size are
    all granted -- each returns the heap end it found -- and the heap end
    finishes at [&__HeapBase] plus their sum. *)
Theorem nonneg_requests_within_region (ld : LinkerSymbols) (cfg : BuildConfig)
    (pReent : Z) (incrs : list Z) :
  linker_ok ld ->
  Forall (fun incr => 0 <= incr) incrs ->
  total incrs <= HEAP_SIZE ld ->
  let r := sbrk_requests ld cfg pReent incrs (initial_state ld) in
  result r = Returned (previous_ends (__HeapBase ld) incrs) /\
  currentHeapEnd (final r) = __HeapBase ld + total incrs.
Proof.
  intros (H0 & H1 & H2 & H3) Hnn Hsum r. subst r.
  apply (requests_all_granted ld cfg pReent incrs H2 (initial_state ld)).
  simpl. apply nonneg_all_fit; [exact H0 | exact Hnn | lia].
Qed.

Lemma nonneg_requests_within_region_witness :
  let r := sbrk_requests sram_4k hook_build 0 [100; 0; 3996] (initial_state sram_4k) in
  result r = Returned [536870912; 536871012; 536871012] /\
  currentHeapEnd (final r) = 536875008.
Proof.
  apply (nonneg_requests_within_region sram_4k hook_build 0 [100; 0; 3996]);
    [by_evaluation | repeat constructor; by_evaluation | by_evaluation].
Defined.




(** * Heap extension: bounds and direction of the heap end *)

(** A request with a negative increment is served like any other: from the
    initial state, [_sbrk_r(pReent, -1)] passes the limit test and leaves
    the heap end one byte below [&__HeapBase]. *)
Lemma negative_request_goes_below_base :
  let s := final (sbrk_requests sram_4k default_build 0 [-1] (initial_state sram_4k)) in
  is_int (-1) /\
  currentHeapEnd s = __HeapBase sram_4k - 1 /\
  currentHeapEnd s < __HeapBase sram_4k.
Proof.
  by_evaluation.
Qed.

(** C5, as the code has it.  After any sequence of calls from the initial
    state the heap end lies between address 0 and [&__HeapLimit]; it is at
    or above [&__HeapBase] when no increment of the sequence was negative. *)
Theorem heap_end_bounds (ld : LinkerSymbols) (cfg : BuildConfig)
    (pReent : Z) (incrs : list Z) :
  linker_ok ld -> low_half ld ->
  Forall is_int incrs ->
  let s := final (sbrk_requests ld cfg pReent incrs (initial_state ld)) in
  0 <= currentHeapEnd s <= __HeapLimit ld /\
  (Forall (fun incr => 0 <= incr) incrs -> __HeapBase ld <= currentHeapEnd s).
Proof.
  intros Hok Hl Hint s.
  split; [apply (heap_inv_requests ld cfg pReent incrs Hok Hl Hint) |].
  intros Hnn. subst s.
  apply (sbrk_requests_invariant ld cfg pReent
           (fun s => heap_inv ld s /\ __HeapBase ld <= currentHeapEnd s)).
  - intros incr s Hin [Hinv Hb].
    rewrite Forall_forall in Hint, Hnn.
    pose proof (Hint incr Hin) as Hi. pose proof (Hnn incr Hin) as Hn.
    split; [apply heap_inv_step; assumption |].
    destruct Hinv as [Hc _].
    destruct (Z_le_gt_dec (ptr_add (currentHeapEnd s) incr) (__HeapLimit ld)) as [H | H].
    + destruct (ptr_add_low_half (__HeapLimit ld) (currentHeapEnd s) incr Hl Hc Hi H)
        as [Hadd _].
      destruct (sbrk_r_granted ld cfg pReent incr s H) as (_ & C & _).
      rewrite C, Hadd. lia.
    + destruct (sbrk_r_refused ld cfg pReent incr s H) as (_ & C & _).
      rewrite C. exact Hb.
  - split; [apply heap_inv_initial; assumption | simpl; lia].
Qed.

Lemma heap_end_bounds_witness :
  let s := final (sbrk_requests sram_4k default_build 0 [100; 4000; 0; 3996; 1]
                    (initial_state sram_4k)) in
  0 <= currentHeapEnd s <= 536875008 /\ 536870912 <= currentHeapEnd s.
Proof.
  pose proof (heap_end_bounds sram_4k default_build 0 [100; 4000; 0; 3996; 1]
                ltac:(by_evaluation) ltac:(by_evaluation)
                ltac:(repeat constructor; by_evaluation)) as H.
  split; [exact (proj1 H) |].
  apply (proj2 H). repeat constructor; by_evaluation.
Defined.




(** On the region at 0x8000_0000: after 4096 bytes, the non-negative
    request of 2147479552 bytes wraps, is granted and takes the heap end
    from 0x8000_1000 down to address 0. *)
Lemma wrapped_request_lowers_heap_end :
  let s := final (_sbrk_r sdram_32m default_build 0 4096 (initial_state sdram_32m)) in
  let r := _sbrk_r sdram_32m default_build 0 2147479552 s in
  currentHeapEnd s = 2147487744 /\
  result r = Returned 2147487744 /\
  currentHeapEnd (final r) = 0.
Proof.
  by_evaluation.
Qed.

(** * The newlib locks *)

(** An interrupt handler that enters [__env_lock] gets through: the call
    returns and the scheduler is left suspended one level deeper. *)
Lemma env_lock_in_interrupt_returns :
  let isr := set_insideInterrupt true (initial_state sram_4k) in
  fst (xPortIsInsideInterrupt isr) = Returned true /\
  result (__env_lock isr) = Returned tt /\
  uxSchedulerSuspended (final (__env_lock isr)) = S (uxSchedulerSuspended isr).
Proof.
  by_evaluation.
Qed.

(** C7, as the code has it.  [__malloc_lock] called while
    [xPortIsInsideInterrupt()] is true fails its [configASSERT] and never
    returns, the scheduler untouched.  [__env_lock] has no such check: in
    the same context it returns with the scheduler suspended. *)
Theorem lock_in_interrupt (p : Z) (s : State) :
  insideInterrupt s = true ->
  __malloc_lock p s = (Stopped AssertionFailure, s) /\
  result (__env_lock s) = Returned tt /\
  uxSchedulerSuspended (final (__env_lock s)) = S (uxSchedulerSuspended s).
Proof.
  intros H.
  unfold __malloc_lock, __env_lock, xPortIsInsideInterrupt, configASSERT,
    vTaskSuspendAll, bind, gets, modify, ret, stop, result, final.
  rewrite H. simpl. auto.
Qed.

Lemma lock_in_interrupt_witness :
  let isr := set_insideInterrupt true (initial_state sram_4k) in
  __malloc_lock 0 isr = (Stopped AssertionFailure, isr) /\
  result (__env_lock isr) = Returned tt /\
  uxSchedulerSuspended (final (__env_lock isr)) = 1%nat.
Proof.
  apply (lock_in_interrupt 0 (set_insideInterrupt true (initial_state sram_4k))).
  reflexivity.
Defined.

(** Outside interrupt context [__malloc_lock] suspends the scheduler and
    returns; [__malloc_unlock] undoes it. *)
Lemma malloc_lock_in_task (p : Z) (s : State) :
  insideInterrupt s = false ->
  result (__malloc_lock p s) = Returned tt /\
  uxSchedulerSuspended (final (__malloc_lock p s)) = S (uxSchedulerSuspended s) /\
  uxSchedulerSuspended (final (__malloc_unlock p (final (__malloc_lock p s))))
    = uxSchedulerSuspended s.
Proof.
  intros H.
  unfold __malloc_lock, __malloc_unlock, xPortIsInsideInterrupt, configASSERT,
    vTaskSuspendAll, xTaskResumeAll, bind, gets, modify, ret, stop, result, final.
  rewrite H. simpl. auto.
Qed.

(** * The out-of-memory branch, build by build *)

(** Default build: errno of the caller's reent is set, the scheduler is
    resumed, the failure value is returned. *)
Lemma sbrk_r_refused_default_build (ld : LinkerSymbols) (cfg : BuildConfig)
    (pReent incr : Z) (s : State) :
  configUSE_MALLOC_FAILED_HOOK cfg <> 1 ->
  configHARD_STOP_ON_MALLOC_FAILURE cfg = false ->
  ptr_add (currentHeapEnd s) incr > __HeapLimit ld ->
  let r := _sbrk_r ld cfg pReent incr s in
  result r = Returned SBRK_FAILED /\
  reent_errno (final r) pReent = ENOMEM /\
  uxSchedulerSuspended (final r) = uxSchedulerSuspended s /\
  mallocFailedHookCalls (final r) = mallocFailedHookCalls s.
Proof.
  intros Hh Hs H r. subst r. apply Z.gtb_gt in H. apply Z.eqb_neq in Hh.
  unfold _sbrk_r, out_of_memory, store_errno, vTaskSuspendAll, xTaskResumeAll,
    bind, gets, modify, ret, result, final; simpl.
  rewrite H, Hh, Hs. simpl. rewrite Z.eqb_refl. auto.
Qed.

Lemma sbrk_r_refused_default_build_witness :
  let r := _sbrk_r sram_4k default_build 7 4097 (initial_state sram_4k) in
  result r = Returned 4294967295 /\
  reent_errno (final r) 7 = 12 /\
  uxSchedulerSuspended (final r) = O /\
  mallocFailedHookCalls (final r) = O.
Proof.
  apply (sbrk_r_refused_default_build sram_4k default_build 7 4097
           (initial_state sram_4k));
    by_evaluation.
Defined.

(** Hook build: the hook is called and the failure value is returned, but
    the branch has neither the errno store nor the [xTaskResumeAll] of the
    default branch: the scheduler stays suspended one level deeper than
    the caller left it. *)
Lemma sbrk_r_refused_hook_build (ld : LinkerSymbols) (cfg : BuildConfig)
    (pReent incr : Z) (s : State) :
  configUSE_MALLOC_FAILED_HOOK cfg = 1 ->
  ptr_add (currentHeapEnd s) incr > __HeapLimit ld ->
  let r := _sbrk_r ld cfg pReent incr s in
  result r = Returned SBRK_FAILED /\
  mallocFailedHookCalls (final r) = S (mallocFailedHookCalls s) /\
  (forall reent, reent_errno (final r) reent = reent_errno s reent) /\
  uxSchedulerSuspended (final r) = S (uxSchedulerSuspended s).
Proof.
  intros Hh H r. subst r. apply Z.gtb_gt in H.
  unfold _sbrk_r, out_of_memory, vApplicationMallocFailedHook, vTaskSuspendAll,
    bind, gets, modify, ret, result, final; simpl.
  rewrite H, Hh. simpl. auto.
Qed.

(** C4 on the code.  The same refused request (4097 bytes from a fresh
    4096-byte region, reent 0) in the hook build and in the default build:
    both return [(char * )-1]; the default build sets errno to [ENOMEM]
    and leaves the scheduler running, the hook build calls the hook once,
    leaves errno at 0 and leaves the scheduler suspended. *)
Theorem sbrk_r_hook_build_skips_errno_and_resume :
  let s := initial_state sram_4k in
  let hook := _sbrk_r sram_4k hook_build 0 4097 s in
  let dflt := _sbrk_r sram_4k default_build 0 4097 s in
  uxSchedulerSuspended s = O /\
  result hook = Returned SBRK_FAILED /\
  mallocFailedHookCalls (final hook) = 1%nat /\
  reent_errno (final hook) 0 = 0 /\
  uxSchedulerSuspended (final hook) = 1%nat /\
  result dflt = Returned SBRK_FAILED /\
  reent_errno (final dflt) 0 = ENOMEM /\
  uxSchedulerSuspended (final dflt) = O.
Proof.
  cbv. repeat split; reflexivity.
Qed.

(** * Free-space query *)

Lemma uint_wrap_add_int_wrap (a b : Z) :
  uint_wrap (a + int_wrap b) = uint_wrap (a + b).
Proof.
  unfold uint_wrap, int_wrap.
  replace (a + ((b + 2147483648) mod 4294967296 - 2147483648))
    with ((a - 2147483648) + (b + 2147483648) mod 4294967296) by lia.
  rewrite Zplus_mod_idemp_r. f_equal. lia.
Qed.

(** C9.  [xPortGetFreeHeapSize] returns [mallinfo().fordblks] plus
    [heapBytesRemaining]; and when a call [_sbrk_r(pReent, d)] is granted
    while newlib's [fordblks] stays what it was, the query afterwards
    returns exactly [d] less than the query before.  Both sums are taken
    to fit the [size_t] the function returns. *)
Theorem free_heap_size_after_extension (ld : LinkerSymbols) (cfg : BuildConfig)
    (mallinfo : State -> Mallinfo) (pReent d : Z) (s : State) :
  __HeapLimit ld <= UINTPTR_MAX ->
  0 <= currentHeapEnd s + d <= __HeapLimit ld ->
  let s' := final (_sbrk_r ld cfg pReent d s) in
  fordblks (mallinfo s') = fordblks (mallinfo s) ->
  let before := fordblks (mallinfo s) + heapBytesRemaining s in
  0 <= before <= SIZE_MAX ->
  0 <= before - d <= SIZE_MAX ->
  xPortGetFreeHeapSize mallinfo s = (Returned before, s) /\
  xPortGetFreeHeapSize mallinfo s' = (Returned (before - d), s').
Proof.
  intros Hlim Hfit s' Hfix before Hb Ha.
  unfold xPortGetFreeHeapSize, ret.
  destruct (sbrk_r_granted ld cfg pReent d s) as (_ & _ & B & _).
  { unfold ptr_add. rewrite uint_wrap_id by lia. lia. }
  fold s' in B. rewrite Hfix, B. unfold int_sub.
  rewrite uint_wrap_add_int_wrap.
  rewrite !uint_wrap_id; subst before; unfold SIZE_MAX, UINTPTR_MAX in *;
    [split; [reflexivity | f_equal; f_equal; lia] | lia | lia].
Qed.

Lemma free_heap_size_after_extension_witness :
  let mi := fun _ : State => mkMallinfo 64 in
  let s := initial_state sram_4k in
  let s' := final (_sbrk_r sram_4k default_build 0 100 s) in
  xPortGetFreeHeapSize mi s = (Returned 4160, s) /\
  xPortGetFreeHeapSize mi s' = (Returned (4160 - 100), s').
Proof.
  apply (free_heap_size_after_extension sram_4k default_build
           (fun _ : State => mkMallinfo 64) 0 100 (initial_state sram_4k));
    by_evaluation.
Defined.

(** * malloc accounting *)

Lemma bump_malloc_r_keeps_accounting (ld : LinkerSymbols) (cfg : BuildConfig) :
  keeps_accounting (bump_malloc_r ld cfg).
Proof.
  intros nbytes s.
  pose proof (sbrk_r_frame ld cfg (_impure_ptr s) nbytes s) as H.
  unfold bump_malloc_r, sbrk, bind, gets, ret, final in *. simpl.
  destruct (_sbrk_r ld cfg (_impure_ptr s) nbytes s) as [[p | h] s1];
    simpl in *; exact H.
Qed.

(** C10.  [__wrap_malloc(n)] adds exactly 1 to [MallocCallCnt] and exactly
    [n] to [TotalMallocdBytes], although the real malloc it calls comes
    back through [__wrap__malloc_r]; [__wrap__malloc_r] entered with
    [inside_malloc] clear adds 1 and [n] as well, and entered with the flag
    set it adds nothing.  The sums are taken to fit the counters' types. *)
Theorem malloc_wrappers_count_once (real_malloc_r : Z -> M Z)
    (reent nbytes : Z) (s : State) :
  keeps_accounting real_malloc_r ->
  is_int (MallocCallCnt s + 1) ->
  0 <= TotalMallocdBytes s + nbytes <= SIZE_MAX ->
  (let s' := final (__wrap_malloc real_malloc_r nbytes s) in
   MallocCallCnt s' = MallocCallCnt s + 1 /\
   TotalMallocdBytes s' = TotalMallocdBytes s + nbytes) /\
  (inside_malloc s = false ->
   let s' := final (__wrap__malloc_r real_malloc_r reent nbytes s) in
   MallocCallCnt s' = MallocCallCnt s + 1 /\
   TotalMallocdBytes s' = TotalMallocdBytes s + nbytes) /\
  (inside_malloc s = true ->
   let s' := final (__wrap__malloc_r real_malloc_r reent nbytes s) in
   MallocCallCnt s' = MallocCallCnt s /\
   TotalMallocdBytes s' = TotalMallocdBytes s).
Proof.
  intros Hframe Hcnt Htot.
  assert (Hc : int_add (MallocCallCnt s) 1 = MallocCallCnt s + 1)
    by (apply int_wrap_id; exact Hcnt).
  assert (Ht : size_add (TotalMallocdBytes s) nbytes = TotalMallocdBytes s + nbytes)
    by (apply uint_wrap_id; exact Htot).
  unfold __wrap_malloc, __real_malloc, __wrap__malloc_r, count_request,
    bind, gets, modify, ret, final.
  split; [| split]; [| intros Hin; rewrite Hin ..]; simpl;
    match goal with |- context [real_malloc_r nbytes ?s2] =>
      destruct (Hframe nbytes s2) as (F1 & F2 & _);
      destruct (real_malloc_r nbytes s2) as [[p | h] s3]
    end;
    unfold final in F1, F2; simpl in *; rewrite F1, F2;
    try rewrite Hc; try rewrite Ht; auto.
Qed.

Lemma malloc_wrappers_count_once_witness :
  let real := bump_malloc_r sram_4k default_build in
  let s := initial_state sram_4k in
  (MallocCallCnt (final (__wrap_malloc real 24 s)) = 1 /\
   TotalMallocdBytes (final (__wrap_malloc real 24 s)) = 24) /\
  (MallocCallCnt (final (__wrap__malloc_r real 0 24 s)) = 1 /\
   TotalMallocdBytes (final (__wrap__malloc_r real 0 24 s)) = 24).
Proof.
  pose proof (malloc_wrappers_count_once (bump_malloc_r sram_4k default_build)
                0 24 (initial_state sram_4k)
                (bump_malloc_r_keeps_accounting sram_4k default_build)
                ltac:(by_evaluation) ltac:(by_evaluation)) as H.
  split; [exact (proj1 H) | exact (proj1 (proj2 H) eq_refl)].
Defined.

(** * The scenario of a 4096-byte region *)

(** A request of 100 bytes is granted at offset 0; 4000 more are refused
    and the heap end stays at base+100; 3996 are granted and the heap end
    reaches base+4096; one more byte is refused. *)
Example region_4096_scenario :
  let base := __HeapBase sram_4k in
  let r := sbrk_requests sram_4k default_build 0 [100; 4000; 3996; 1]
             (initial_state sram_4k) in
  result r = Returned [base + 0; SBRK_FAILED; base + 100; SBRK_FAILED] /\
  currentHeapEnd (final r) = base + 4096 /\
  heapBytesRemaining (final r) = 0 /\
  currentHeapEnd
    (final (sbrk_requests sram_4k default_build 0 [100; 4000] (initial_state sram_4k)))
    = base + 100.
Proof.
  cbv. repeat split; reflexivity.
Qed.

(** * Further properties of the entry points *)

(** ** The state a call of [_sbrk_r] leaves, field by field *)

Lemma sbrk_r_granted_state (ld : LinkerSymbols) (cfg : BuildConfig)
    (pReent incr : Z) (s : State) :
  ptr_add (currentHeapEnd s) incr <= __HeapLimit ld ->
  _sbrk_r ld cfg pReent incr s =
  (Returned (currentHeapEnd s),
   mkState (ptr_add (currentHeapEnd s) incr)
           (int_sub (heapBytesRemaining s) incr)
           (if NDEBUG cfg then totalBytesProvidedBySBRK s
            else int_add (totalBytesProvidedBySBRK s) incr)
           (TotalMallocdBytes s) (MallocCallCnt s) (inside_malloc s)
           (uxSchedulerSuspended s) (insideInterrupt s) (reent_errno s)
           (_impure_ptr s) (mallocFailedHookCalls s)).
Proof.
  intros H. unfold _sbrk_r. run_monad.
  destruct (ptr_add (currentHeapEnd s) incr >? __HeapLimit ld) eqn:E.
  - apply Z.gtb_gt in E. lia.
  - destruct (NDEBUG cfg); reflexivity.
Qed.

Lemma sbrk_r_refused_state (ld : LinkerSymbols) (cfg : BuildConfig)
    (pReent incr : Z) (s : State) :
  ptr_add (currentHeapEnd s) incr > __HeapLimit ld ->
  _sbrk_r ld cfg pReent incr s =
  if configUSE_MALLOC_FAILED_HOOK cfg =? 1 then
    (Returned SBRK_FAILED,
     set_mallocFailedHookCalls (S (mallocFailedHookCalls s))
       (set_uxSchedulerSuspended (S (uxSchedulerSuspended s)) s))
  else if configHARD_STOP_ON_MALLOC_FAILURE cfg then
    (Stopped BreakpointLoop,
     set_uxSchedulerSuspended (S (uxSchedulerSuspended s)) s)
  else
    (Returned SBRK_FAILED,
     mkState (currentHeapEnd s) (heapBytesRemaining s) (totalBytesProvidedBySBRK s)
             (TotalMallocdBytes s) (MallocCallCnt s) (inside_malloc s)
             (uxSchedulerSuspended s) (insideInterrupt s)
             (fun r => if r =? pReent then ENOMEM else reent_errno s r)
             (_impure_ptr s) (mallocFailedHookCalls s)).
Proof.
  intros H. apply Z.gtb_gt in H. unfold _sbrk_r. run_monad. rewrite H.
  destruct (configUSE_MALLOC_FAILED_HOOK cfg =? 1);
    destruct (configHARD_STOP_ON_MALLOC_FAILURE cfg); reflexivity.
Qed.

(** Either branch, decided by the limit test. *)
Lemma sbrk_r_cases (ld : LinkerSymbols) (incr : Z) (s : State) :
  ptr_add (currentHeapEnd s) incr <= __HeapLimit ld \/
  ptr_add (currentHeapEnd s) incr > __HeapLimit ld.
Proof. lia. Qed.

(** In a build without the hard stop every run returns one value per
    request. *)
Lemma sbrk_requests_return (ld : LinkerSymbols) (cfg : BuildConfig) (pReent : Z)
    (incrs : list Z) :
  hard_stop_selected cfg = false ->
  forall s, exists ps,
    result (sbrk_requests ld cfg pReent incrs s) = Returned ps /\
    length ps = length incrs.
Proof.
  intros Hs. induction incrs as [| d rest IH]; intros s.
  - exists []. split; reflexivity.
  - rewrite sbrk_requests_cons.
    destruct (sbrk_r_returns ld cfg pReent d s Hs) as [p Hp].
    destruct (_sbrk_r ld cfg pReent d s) as [o s1]. unfold result in Hp.
    simpl in Hp. subst o.
    destruct (IH s1) as (ps & Hps & Hlen).
    destruct (sbrk_requests ld cfg pReent rest s1) as [o2 s2].
    unfold result in Hps. simpl in Hps. subst o2.
    exists (p :: ps). split; [reflexivity | simpl; congruence].
Qed.

(** ** Debug accounting of the bytes provided *)

(** In a build without [NDEBUG], [totalBytesProvidedBySBRK] is, after any
    run from the initial state, the distance of the heap end from
    [&__HeapBase], so that it and [heapBytesRemaining] add up to the region
    size; in an [NDEBUG] build the variable stays 0. *)
Theorem totalBytesProvidedBySBRK_is_heap_growth (ld : LinkerSymbols)
    (cfg : BuildConfig) (pReent : Z) (incrs : list Z) :
  linker_ok ld -> low_half ld ->
  Forall is_int incrs ->
  let s := final (sbrk_requests ld cfg pReent incrs (initial_state ld)) in
  (NDEBUG cfg = false ->
   totalBytesProvidedBySBRK s = currentHeapEnd s - __HeapBase ld /\
   totalBytesProvidedBySBRK s + heapBytesRemaining s = HEAP_SIZE ld) /\
  (NDEBUG cfg = true -> totalBytesProvidedBySBRK s = 0).
Proof.
  intros Hok Hl Hint s. subst s.
  pose proof Hok as (H0 & H1 & H2 & H3).
  assert (Hinv :
    let s := final (sbrk_requests ld cfg pReent incrs (initial_state ld)) in
    heap_inv ld s /\
    totalBytesProvidedBySBRK s =
      if NDEBUG cfg then 0 else currentHeapEnd s - __HeapBase ld).
  { apply (sbrk_requests_invariant ld cfg pReent
             (fun s => heap_inv ld s /\
                totalBytesProvidedBySBRK s =
                  if NDEBUG cfg then 0 else currentHeapEnd s - __HeapBase ld)).
    - intros incr s Hin [Hinv Ht].
      rewrite Forall_forall in Hint. pose proof (Hint incr Hin) as Hi.
      split; [apply heap_inv_step; assumption |].
      destruct Hinv as [Hc _].
      destruct (sbrk_r_cases ld incr s) as [H | H].
      + destruct (ptr_add_low_half (__HeapLimit ld) (currentHeapEnd s) incr Hl Hc Hi H)
          as [Hadd Hpos].
        rewrite (sbrk_r_granted_state ld cfg pReent incr s H). unfold final. simpl.
        destruct (NDEBUG cfg); [exact Ht |].
        rewrite Ht, Hadd. unfold int_add. rewrite int_wrap_id; [lia |].
        rewrite Hadd in H.
        unfold low_half, is_int, INT_MIN, INT_MAX in *. lia.
      + rewrite (sbrk_r_refused_state ld cfg pReent incr s H). unfold final.
        destruct (configUSE_MALLOC_FAILED_HOOK cfg =? 1);
          destruct (configHARD_STOP_ON_MALLOC_FAILURE cfg); simpl; exact Ht.
    - split; [apply heap_inv_initial; assumption |].
      simpl. destruct (NDEBUG cfg); lia. }
  destruct Hinv as [[_ Hr] Ht].
  split; intros Hn; rewrite Hn in Ht; [| exact Ht].
  split; [exact Ht | rewrite Ht, Hr; lia].
Qed.

Lemma totalBytesProvidedBySBRK_is_heap_growth_witness :
  let s := final (sbrk_requests sram_4k default_build 0 [100; 4000; -30; 3996]
                    (initial_state sram_4k)) in
  totalBytesProvidedBySBRK s = currentHeapEnd s - 536870912 /\
  totalBytesProvidedBySBRK s + heapBytesRemaining s = 4096.
Proof.
  apply (proj1 (totalBytesProvidedBySBRK_is_heap_growth sram_4k default_build 0
                  [100; 4000; -30; 3996]
                  ltac:(by_evaluation) ltac:(by_evaluation)
                  ltac:(repeat constructor; by_evaluation))).
  reflexivity.
Defined.

(** ** The scheduler across runs of requests *)

(** Hook build: every call returns, and after any run the scheduler is
    suspended deeper than before by exactly the number of times the failed
    hook was called, one level for each refused request. *)
Theorem hook_build_suspension_grows_with_refusals (ld : LinkerSymbols)
    (cfg : BuildConfig) (pReent : Z) (incrs : list Z) (s : State) :
  configUSE_MALLOC_FAILED_HOOK cfg = 1 ->
  let r := sbrk_requests ld cfg pReent incrs s in
  (exists ps, result r = Returned ps /\ length ps = length incrs) /\
  (mallocFailedHookCalls s <= mallocFailedHookCalls (final r))%nat /\
  (uxSchedulerSuspended (final r) + mallocFailedHookCalls s
   = uxSchedulerSuspended s + mallocFailedHookCalls (final r))%nat.
Proof.
  intros Hh r. subst r. split.
  - apply sbrk_requests_return. unfold hard_stop_selected.
    rewrite Hh. reflexivity.
  - apply (sbrk_requests_invariant ld cfg pReent
             (fun s' => (mallocFailedHookCalls s <= mallocFailedHookCalls s')%nat /\
                        (uxSchedulerSuspended s' + mallocFailedHookCalls s
                         = uxSchedulerSuspended s + mallocFailedHookCalls s')%nat)).
    + intros incr s0 _ [Hle Heq].
      destruct (sbrk_r_cases ld incr s0) as [H | H].
      * rewrite (sbrk_r_granted_state ld cfg pReent incr s0 H). unfold final. simpl.
        split; assumption.
      * rewrite (sbrk_r_refused_state ld cfg pReent incr s0 H). unfold final.
        apply Z.eqb_eq in Hh. rewrite Hh. simpl. split; lia.
    + split; lia.
Qed.

Lemma hook_build_suspension_grows_with_refusals_witness :
  let r := sbrk_requests sram_4k hook_build 0 [100; 4000; 3996; 1]
             (initial_state sram_4k) in
  (exists ps, result r = Returned ps /\ length ps = 4%nat) /\
  (0 <= mallocFailedHookCalls (final r))%nat /\
  (uxSchedulerSuspended (final r) + 0 = 0 + mallocFailedHookCalls (final r))%nat.
Proof.
  apply (hook_build_suspension_grows_with_refusals sram_4k hook_build 0
           [100; 4000; 3996; 1] (initial_state sram_4k)).
  reflexivity.
Defined.

(** Default build: every call returns, and after any run -- whatever was
    granted or refused -- the scheduler is exactly as deep in suspension as
    before and the failed hook was never called. *)
Theorem default_build_run_is_balanced (ld : LinkerSymbols)
    (cfg : BuildConfig) (pReent : Z) (incrs : list Z) (s : State) :
  configUSE_MALLOC_FAILED_HOOK cfg <> 1 ->
  configHARD_STOP_ON_MALLOC_FAILURE cfg = false ->
  let r := sbrk_requests ld cfg pReent incrs s in
  (exists ps, result r = Returned ps /\ length ps = length incrs) /\
  uxSchedulerSuspended (final r) = uxSchedulerSuspended s /\
  mallocFailedHookCalls (final r) = mallocFailedHookCalls s.
Proof.
  intros Hh Hs r. subst r. apply Z.eqb_neq in Hh. split.
  - apply sbrk_requests_return. unfold hard_stop_selected.
    rewrite Hs. apply andb_false_r.
  - apply (sbrk_requests_invariant ld cfg pReent
             (fun s' => uxSchedulerSuspended s' = uxSchedulerSuspended s /\
                        mallocFailedHookCalls s' = mallocFailedHookCalls s)).
    + intros incr s0 _ [Hu Hc].
      destruct (sbrk_r_cases ld incr s0) as [H | H].
      * rewrite (sbrk_r_granted_state ld cfg pReent incr s0 H). unfold final. simpl.
        split; assumption.
      * rewrite (sbrk_r_refused_state ld cfg pReent incr s0 H). unfold final.
        rewrite Hh, Hs. simpl. split; assumption.
    + split; reflexivity.
Qed.

Lemma default_build_run_is_balanced_witness :
  let r := sbrk_requests sram_4k default_build 0 [100; 4000; 3996; 1]
             (initial_state sram_4k) in
  (exists ps, result r = Returned ps /\ length ps = 4%nat) /\
  uxSchedulerSuspended (final r) = O /\
  mallocFailedHookCalls (final r) = O.
Proof.
  apply (default_build_run_is_balanced sram_4k default_build 0
           [100; 4000; 3996; 1] (initial_state sram_4k));
    by_evaluation.
Defined.

(** ** errno and the current reent *)

Lemma sbrk_is_sbrk_r_of_impure_ptr (ld : LinkerSymbols) (cfg : BuildConfig)
    (incr : Z) (s : State) :
  sbrk ld cfg incr s = _sbrk_r ld cfg (_impure_ptr s) incr s.
Proof.
  unfold sbrk, bind, gets. reflexivity.
Qed.

(** [sbrk] and [_sbrk] work on the reent [_impure_ptr] points to.  In the
    default build a refused [sbrk] returns [(char * )-1] with [ENOMEM] in
    that reent's errno and every other reent's errno as it was; a granted
    [sbrk] writes no errno at all.  [_sbrk] does the same as [sbrk]. *)
Theorem sbrk_errno_is_of_current_reent (ld : LinkerSymbols) (cfg : BuildConfig)
    (incr : Z) (s : State) :
  configUSE_MALLOC_FAILED_HOOK cfg <> 1 ->
  configHARD_STOP_ON_MALLOC_FAILURE cfg = false ->
  let r := sbrk ld cfg incr s in
  _sbrk ld cfg incr s = r /\
  (ptr_add (currentHeapEnd s) incr > __HeapLimit ld ->
   result r = Returned SBRK_FAILED /\
   reent_errno (final r) (_impure_ptr s) = ENOMEM /\
   forall reent, reent <> _impure_ptr s ->
     reent_errno (final r) reent = reent_errno s reent) /\
  (ptr_add (currentHeapEnd s) incr <= __HeapLimit ld ->
   result r = Returned (currentHeapEnd s) /\
   forall reent, reent_errno (final r) reent = reent_errno s reent).
Proof.
  intros Hh Hs r. subst r. apply Z.eqb_neq in Hh.
  split; [reflexivity |].
  rewrite sbrk_is_sbrk_r_of_impure_ptr. split; intros H.
  - rewrite (sbrk_r_refused_state ld cfg (_impure_ptr s) incr s H).
    rewrite Hh, Hs. unfold result, final. cbn [fst snd reent_errno].
    rewrite Z.eqb_refl. repeat split.
    intros reent Hne. apply Z.eqb_neq in Hne. rewrite Hne. reflexivity.
  - rewrite (sbrk_r_granted_state ld cfg (_impure_ptr s) incr s H).
    unfold result, final. simpl. auto.
Qed.

Lemma sbrk_errno_is_of_current_reent_witness :
  let r := sbrk sram_4k default_build 4097 (initial_state sram_4k) in
  result r = Returned 4294967295 /\
  reent_errno (final r) 0 = 12 /\
  reent_errno (final r) 5 = 0.
Proof.
  pose proof (sbrk_errno_is_of_current_reent sram_4k default_build 4097
                (initial_state sram_4k) ltac:(by_evaluation) ltac:(by_evaluation))
    as (_ & H & _).
  destruct (H ltac:(by_evaluation)) as (R & E & O).
  split; [exact R |]. split; [exact E |].
  apply (O 5). by_evaluation.
Defined.

(** ** Granting, refusing and giving back *)

(** Between calls the counter decides: in a state where
    [heapBytesRemaining] is the room left, a request is granted exactly
    when [incr] is at most [heapBytesRemaining] -- a request for all that
    remains included -- and refused, with nothing changed, when it asks
    for a single byte more. *)
Theorem heapBytesRemaining_decides (ld : LinkerSymbols) (cfg : BuildConfig)
    (pReent incr : Z) (s : State) :
  heap_inv ld s -> low_half ld ->
  0 <= currentHeapEnd s + incr <= UINTPTR_MAX ->
  let r := _sbrk_r ld cfg pReent incr s in
  (incr <= heapBytesRemaining s ->
   result r = Returned (currentHeapEnd s) /\
   currentHeapEnd (final r) = currentHeapEnd s + incr /\
   heapBytesRemaining (final r) = heapBytesRemaining s - incr) /\
  (heapBytesRemaining s < incr ->
   result r = (if hard_stop_selected cfg then Stopped BreakpointLoop
               else Returned SBRK_FAILED) /\
   currentHeapEnd (final r) = currentHeapEnd s /\
   heapBytesRemaining (final r) = heapBytesRemaining s).
Proof.
  intros [Hc Hr] Hl Hrep r. subst r.
  assert (Hadd : ptr_add (currentHeapEnd s) incr = currentHeapEnd s + incr)
    by (apply uint_wrap_id; exact Hrep).
  split; intros H.
  - rewrite sbrk_r_granted_state by lia. unfold result, final. simpl.
    rewrite Hadd. unfold int_sub. rewrite int_wrap_id; [auto |].
    unfold low_half, is_int, INT_MIN, INT_MAX in *. lia.
  - apply sbrk_r_refused. lia.
Qed.

Lemma heapBytesRemaining_decides_witness :
  let s := final (_sbrk_r sram_4k default_build 0 100 (initial_state sram_4k)) in
  let r := _sbrk_r sram_4k default_build 0 3996 s in
  result r = Returned 536871012 /\
  currentHeapEnd (final r) = 536871012 + 3996 /\
  heapBytesRemaining (final r) = 3996 - 3996.
Proof.
  apply (proj1 (heapBytesRemaining_decides sram_4k default_build 0 3996
                  (final (_sbrk_r sram_4k default_build 0 100 (initial_state sram_4k)))
                  ltac:(by_evaluation) ltac:(by_evaluation) ltac:(by_evaluation)));
    by_evaluation.
Defined.

(** Memory obtained and given back: after a granted request for [d] bytes,
    the request [-d] is granted too, returns the raised heap end, and puts
    the heap end and the counter back where they were. *)
Theorem grow_then_give_back (ld : LinkerSymbols) (cfg : BuildConfig)
    (pReent d : Z) (s : State) :
  __HeapLimit ld <= UINTPTR_MAX ->
  0 <= d ->
  0 <= currentHeapEnd s ->
  currentHeapEnd s + d <= __HeapLimit ld ->
  is_int (heapBytesRemaining s) ->
  is_int (heapBytesRemaining s - d) ->
  let s1 := final (_sbrk_r ld cfg pReent d s) in
  let r2 := _sbrk_r ld cfg pReent (- d) s1 in
  currentHeapEnd s1 = currentHeapEnd s + d /\
  result r2 = Returned (currentHeapEnd s + d) /\
  currentHeapEnd (final r2) = currentHeapEnd s /\
  heapBytesRemaining (final r2) = heapBytesRemaining s.
Proof.
  intros Hlim Hd Hc Hfit Hr Hr1 s1 r2.
  assert (Hadd : ptr_add (currentHeapEnd s) d = currentHeapEnd s + d)
    by (apply uint_wrap_id; lia).
  destruct (sbrk_r_granted ld cfg pReent d s) as (_ & C1 & B1 & _); [lia |].
  fold s1 in C1, B1. rewrite Hadd in C1.
  assert (Hback : ptr_add (currentHeapEnd s1) (- d) = currentHeapEnd s).
  { rewrite C1. unfold ptr_add. rewrite uint_wrap_id; lia. }
  destruct (sbrk_r_granted ld cfg pReent (- d) s1) as (R2 & C2 & B2 & _);
    [rewrite Hback; lia |].
  fold r2 in R2, C2, B2.
  rewrite R2, C2, B2, Hback, B1, C1. unfold int_sub.
  rewrite (int_wrap_id (heapBytesRemaining s - d)) by exact Hr1.
  replace (heapBytesRemaining s - d - - d) with (heapBytesRemaining s) by lia.
  rewrite int_wrap_id by exact Hr. auto.
Qed.

Lemma grow_then_give_back_witness :
  let s := initial_state sram_4k in
  let s1 := final (_sbrk_r sram_4k default_build 0 256 s) in
  let r2 := _sbrk_r sram_4k default_build 0 (- 256) s1 in
  currentHeapEnd s1 = currentHeapEnd s + 256 /\
  result r2 = Returned (currentHeapEnd s + 256) /\
  currentHeapEnd (final r2) = currentHeapEnd s /\
  heapBytesRemaining (final r2) = heapBytesRemaining s.
Proof.
  apply (grow_then_give_back sram_4k default_build 0 256 (initial_state sram_4k));
    by_evaluation.
Defined.

(** Nothing is retried and nothing wears off: a request that was refused
    is refused again however often it is repeated, each time with
    [(char * )-1] and with the heap end and the counter untouched (builds
    whose refused calls return). *)
Theorem refused_request_stays_refused (ld : LinkerSymbols) (cfg : BuildConfig)
    (pReent incr : Z) (n : nat) (s : State) :
  hard_stop_selected cfg = false ->
  ptr_add (currentHeapEnd s) incr > __HeapLimit ld ->
  let r := sbrk_requests ld cfg pReent (repeat incr n) s in
  result r = Returned (repeat SBRK_FAILED n) /\
  currentHeapEnd (final r) = currentHeapEnd s /\
  heapBytesRemaining (final r) = heapBytesRemaining s.
Proof.
  intros Hs. revert s. induction n as [| n IH]; intros s H r; subst r.
  - simpl. auto.
  - cbn [repeat]. rewrite sbrk_requests_cons.
    destruct (sbrk_r_refused ld cfg pReent incr s H) as (R & C & B).
    unfold refusal in R. rewrite Hs in R.
    destruct (_sbrk_r ld cfg pReent incr s) as [o s1].
    unfold result, final in R, C, B. simpl in R, C, B. subst o.
    assert (H1 : ptr_add (currentHeapEnd s1) incr > __HeapLimit ld)
      by (rewrite C; exact H).
    destruct (IH s1 H1) as (R1 & C1 & B1).
    destruct (sbrk_requests ld cfg pReent (repeat incr n) s1) as [o2 s2].
    unfold result, final in R1, C1, B1 |- *.
    cbn [fst snd] in R1, C1, B1 |- *. subst o2.
    simpl. split; [reflexivity | split; congruence].
Qed.

Lemma refused_request_stays_refused_witness :
  let r := sbrk_requests sram_4k hook_build 0 (repeat 4097 3) (initial_state sram_4k) in
  result r = Returned (repeat 4294967295 3) /\
  currentHeapEnd (final r) = 536870912 /\
  heapBytesRemaining (final r) = 4096.
Proof.
  apply (refused_request_stays_refused sram_4k hook_build 0 4097 3
           (initial_state sram_4k));
    by_evaluation.
Defined.

(** The only way a call of [_sbrk_r] does not return is the breakpoint
    loop of the hard-stop build on a request beyond the limit.  In
    particular the function makes no check of the interrupt context: it
    never ends in an assertion failure. *)
Theorem sbrk_r_stops_only_in_breakpoint_loop (ld : LinkerSymbols)
    (cfg : BuildConfig) (pReent incr : Z) (s : State) (h : Halt) :
  result (_sbrk_r ld cfg pReent incr s) = Stopped h ->
  h = BreakpointLoop /\
  hard_stop_selected cfg = true /\
  ptr_add (currentHeapEnd s) incr > __HeapLimit ld.
Proof.
  destruct (sbrk_r_cases ld incr s) as [H | H].
  - rewrite (sbrk_r_granted_state ld cfg pReent incr s H). discriminate.
  - rewrite (sbrk_r_refused_state ld cfg pReent incr s H).
    unfold hard_stop_selected.
    destruct (configUSE_MALLOC_FAILED_HOOK cfg =? 1);
      destruct (configHARD_STOP_ON_MALLOC_FAILURE cfg);
      unfold result; simpl; intros E; inversion E; auto.
Qed.

Lemma sbrk_r_stops_only_in_breakpoint_loop_witness :
  BreakpointLoop = BreakpointLoop /\
  hard_stop_selected hard_stop_build = true /\
  ptr_add (currentHeapEnd (set_insideInterrupt true (initial_state sram_4k))) 4097
    > __HeapLimit sram_4k.
Proof.
  apply (sbrk_r_stops_only_in_breakpoint_loop sram_4k hard_stop_build 0 4097
           (set_insideInterrupt true (initial_state sram_4k)) BreakpointLoop).
  reflexivity.
Defined.

(** ** sbrk inside the allocator lock *)

(** From a task, in the default build: a heap extension made under
    [__malloc_lock] returns what the bare [_sbrk_r] would return and
    leaves the same heap end and counter.  The [xTaskResumeAll] inside
    [_sbrk_r] does not end the critical section of the lock -- after the
    inner call the scheduler is still suspended -- and [__malloc_unlock]
    brings the suspension depth back to what the caller had. *)
Theorem sbrk_under_malloc_lock_in_task (ld : LinkerSymbols) (cfg : BuildConfig)
    (reent incr : Z) (s : State) :
  insideInterrupt s = false ->
  configUSE_MALLOC_FAILED_HOOK cfg <> 1 ->
  configHARD_STOP_ON_MALLOC_FAILURE cfg = false ->
  let bare := _sbrk_r ld cfg reent incr s in
  let inner := (__malloc_lock reent ;; _sbrk_r ld cfg reent incr) s in
  let r := sbrk_under_malloc_lock ld cfg reent incr s in
  result r = result bare /\
  currentHeapEnd (final r) = currentHeapEnd (final bare) /\
  heapBytesRemaining (final r) = heapBytesRemaining (final bare) /\
  uxSchedulerSuspended (final inner) = S (uxSchedulerSuspended s) /\
  uxSchedulerSuspended (final r) = uxSchedulerSuspended s.
Proof.
  intros Hctx Hh Hs bare inner r. subst bare inner r. apply Z.eqb_neq in Hh.
  unfold sbrk_under_malloc_lock, __malloc_lock, __malloc_unlock,
    xPortIsInsideInterrupt, configASSERT, vTaskSuspendAll, xTaskResumeAll,
    bind, gets, modify, ret. rewrite Hctx. cbn [negb].
  set (s1 := set_uxSchedulerSuspended (S (uxSchedulerSuspended s)) s).
  destruct (sbrk_r_cases ld incr s) as [H | H].
  - rewrite (sbrk_r_granted_state ld cfg reent incr s H).
    rewrite (sbrk_r_granted_state ld cfg reent incr s1 H).
    unfold result, final. simpl. auto.
  - rewrite (sbrk_r_refused_state ld cfg reent incr s H).
    rewrite (sbrk_r_refused_state ld cfg reent incr s1 H).
    rewrite Hh, Hs. unfold result, final. simpl. auto.
Qed.

Lemma sbrk_under_malloc_lock_in_task_witness :
  let s := initial_state sram_4k in
  let bare := _sbrk_r sram_4k default_build 0 100 s in
  let inner := (__malloc_lock 0 ;; _sbrk_r sram_4k default_build 0 100) s in
  let r := sbrk_under_malloc_lock sram_4k default_build 0 100 s in
  result r = result bare /\
  currentHeapEnd (final r) = currentHeapEnd (final bare) /\
  heapBytesRemaining (final r) = heapBytesRemaining (final bare) /\
  uxSchedulerSuspended (final inner) = 1%nat /\
  uxSchedulerSuspended (final r) = O.
Proof.
  apply (sbrk_under_malloc_lock_in_task sram_4k default_build 0 100
           (initial_state sram_4k));
    by_evaluation.
Defined.

(** From an interrupt handler the same sequence stops at the assertion of
    [__malloc_lock], in every build, before [_sbrk_r] is reached: no
    variable of the program has changed. *)
Theorem sbrk_under_malloc_lock_in_interrupt (ld : LinkerSymbols)
    (cfg : BuildConfig) (reent incr : Z) (s : State) :
  insideInterrupt s = true ->
  sbrk_under_malloc_lock ld cfg reent incr s = (Stopped AssertionFailure, s).
Proof.
  intros Hctx.
  unfold sbrk_under_malloc_lock, __malloc_lock, xPortIsInsideInterrupt,
    configASSERT, bind, gets, stop.
  rewrite Hctx. reflexivity.
Qed.

Lemma sbrk_under_malloc_lock_in_interrupt_witness :
  let isr := set_insideInterrupt true (initial_state sram_4k) in
  sbrk_under_malloc_lock sram_4k hook_build 0 100 isr = (Stopped AssertionFailure, isr).
Proof.
  apply (sbrk_under_malloc_lock_in_interrupt sram_4k hook_build 0 100
           (set_insideInterrupt true (initial_state sram_4k))).
  reflexivity.
Defined.

(** ** Accounting over a run of allocations *)

Lemma total_nonneg (xs : list Z) :
  Forall (fun x => 0 <= x) xs -> 0 <= total xs.
Proof.
  induction 1; simpl; lia.
Qed.

(** One call of [__wrap_malloc] with an allocator that returns: it
    returns, the counters hold the machine sums, the flag is clear. *)
Lemma wrap_malloc_step (real_malloc_r : Z -> M Z) (nbytes : Z) (s : State) :
  keeps_accounting real_malloc_r -> always_returns real_malloc_r ->
  exists p s1,
    __wrap_malloc real_malloc_r nbytes s = (Returned p, s1) /\
    MallocCallCnt s1 = int_add (MallocCallCnt s) 1 /\
    TotalMallocdBytes s1 = size_add (TotalMallocdBytes s) nbytes /\
    inside_malloc s1 = false.
Proof.
  intros Hframe Hret.
  unfold __wrap_malloc, __real_malloc, __wrap__malloc_r, count_request,
    bind, gets, modify, ret. simpl.
  match goal with |- context [real_malloc_r nbytes ?s2] =>
    destruct (Hframe nbytes s2) as (F1 & F2 & _);
    destruct (Hret nbytes s2) as [p Hp];
    destruct (real_malloc_r nbytes s2) as [o s3]
  end.
  unfold result, final in *. simpl in *. subst o.
  exists p, (set_inside_malloc false s3). auto.
Qed.

Lemma pvPortMalloc_requests_cons (malloc : Z -> M Z) (xSize : Z)
    (rest : list Z) (s : State) :
  pvPortMalloc_requests malloc (xSize :: rest) s =
  match malloc xSize s with
  | (Returned p, s1) =>
      match pvPortMalloc_requests malloc rest s1 with
      | (Returned ps, s2) => (Returned (p :: ps), s2)
      | (Stopped h, s2) => (Stopped h, s2)
      end
  | (Stopped h, s1) => (Stopped h, s1)
  end.
Proof.
  cbn [pvPortMalloc_requests]. unfold pvPortMalloc, bind, ret.
  destruct (malloc xSize s) as [[p | h] s1]; [| reflexivity].
  destruct (pvPortMalloc_requests malloc rest s1) as [[ps | h] s2]; reflexivity.
Qed.

(** With the wrappers linked in, a run of [pvPortMalloc] calls is counted
    call by call: afterwards [MallocCallCnt] has grown by the number of
    calls and [TotalMallocdBytes] by the sum of the sizes asked for,
    whether or not the allocations succeeded, and [inside_malloc] is clear
    again.  The sums are taken to fit the counters' types. *)
Theorem pvPortMalloc_requests_are_counted (real_malloc_r : Z -> M Z)
    (sizes : list Z) (s : State) :
  keeps_accounting real_malloc_r -> always_returns real_malloc_r ->
  Forall (fun xSize => 0 <= xSize) sizes ->
  INT_MIN <= MallocCallCnt s ->
  MallocCallCnt s + Z.of_nat (length sizes) <= INT_MAX ->
  0 <= TotalMallocdBytes s ->
  TotalMallocdBytes s + total sizes <= SIZE_MAX ->
  let r := pvPortMalloc_requests (__wrap_malloc real_malloc_r) sizes s in
  (exists ps, result r = Returned ps /\ length ps = length sizes) /\
  MallocCallCnt (final r) = MallocCallCnt s + Z.of_nat (length sizes) /\
  TotalMallocdBytes (final r) = TotalMallocdBytes s + total sizes /\
  (sizes <> [] -> inside_malloc (final r) = false).
Proof.
  intros Hframe Hret. revert s.
  induction sizes as [| x rest IH]; intros s0 Hx Ha Hb Hc Hd r; subst r.
  - simpl. repeat split; try lia; [exists []; auto | congruence].
  - inversion Hx as [| ? ? Hx0 Hrest]; subst.
    pose proof (total_nonneg rest Hrest) as Htr.
    rewrite pvPortMalloc_requests_cons.
    cbn [length total fold_right] in *. fold (total rest) in *.
    destruct (wrap_malloc_step real_malloc_r x s0 Hframe Hret)
      as (p & s1 & E & C & T & F).
    rewrite E.
    assert (C' : MallocCallCnt s1 = MallocCallCnt s0 + 1).
    { rewrite C. apply int_wrap_id. unfold is_int. lia. }
    assert (T' : TotalMallocdBytes s1 = TotalMallocdBytes s0 + x).
    { rewrite T. apply uint_wrap_id. unfold SIZE_MAX, UINTPTR_MAX in *. lia. }
    destruct (IH s1 Hrest) as ((ps & R & L) & IC & IT & IF); try lia.
    destruct (pvPortMalloc_requests (__wrap_malloc real_malloc_r) rest s1)
      as [o s2] eqn:Erun.
    unfold result, final in *. cbn [fst snd] in *. subst o.
    split; [exists (p :: ps); split; [reflexivity | simpl; congruence] |].
    cbn [snd]. split; [lia |]. split; [lia |].
    intros _. destruct rest as [| y rest'].
    + simpl in Erun. unfold ret in Erun. inversion Erun; subst. exact F.
    + apply IF. discriminate.
Qed.

Lemma bump_malloc_r_returns (ld : LinkerSymbols) (cfg : BuildConfig) :
  hard_stop_selected cfg = false -> always_returns (bump_malloc_r ld cfg).
Proof.
  intros Hs nbytes s. unfold bump_malloc_r.
  unfold bind at 1. rewrite sbrk_is_sbrk_r_of_impure_ptr.
  destruct (sbrk_r_returns ld cfg (_impure_ptr s) nbytes s Hs) as [p Hp].
  destruct (_sbrk_r ld cfg (_impure_ptr s) nbytes s) as [o s1].
  unfold result in *. simpl in Hp. subst o.
  eexists. reflexivity.
Qed.

Lemma pvPortMalloc_requests_are_counted_witness :
  let r := pvPortMalloc_requests (__wrap_malloc (bump_malloc_r sram_4k default_build))
             [24; 5000; 8] (initial_state sram_4k) in
  MallocCallCnt (final r) = 0 + 3 /\
  TotalMallocdBytes (final r) = 0 + 5032 /\
  inside_malloc (final r) = false.
Proof.
  pose proof (pvPortMalloc_requests_are_counted
                (bump_malloc_r sram_4k default_build) [24; 5000; 8]
                (initial_state sram_4k)
                (bump_malloc_r_keeps_accounting sram_4k default_build)
                (bump_malloc_r_returns sram_4k default_build eq_refl)
                ltac:(repeat constructor; by_evaluation)
                ltac:(by_evaluation) ltac:(by_evaluation)
                ltac:(by_evaluation) ltac:(by_evaluation))
    as (_ & C & T & F).
  split; [exact C |]. split; [exact T |].
  apply F. discriminate.
Defined.

(** ** The free-space estimate along a run *)

Lemma nonneg_bounded_by_total (xs : list Z) (bound : Z) :
  Forall (fun x => 0 <= x) xs -> total xs <= bound ->
  Forall (fun x => 0 <= x <= bound) xs.
Proof.
  induction 1 as [| x rest Hx Hrest IH]; intros Hb; [constructor |].
  simpl in Hb. pose proof (total_nonneg rest Hrest).
  constructor; [lia | apply IH; lia].
Qed.

(** After non-negative requests that fit the region, with newlib reporting
    as free at most the bytes it was handed, [xPortGetFreeHeapSize] returns
    newlib's free bytes plus the part of the region not handed out yet, a
    value between 0 and the region size; the query changes nothing.  On a
    fresh heap with nothing reported free it returns the region size.
    This holds wherever the region is placed. *)
Theorem free_heap_size_within_region (ld : LinkerSymbols) (cfg : BuildConfig)
    (mallinfo : State -> Mallinfo) (pReent : Z) (incrs : list Z) :
  linker_ok ld ->
  Forall (fun incr => 0 <= incr) incrs ->
  total incrs <= HEAP_SIZE ld ->
  let s := final (sbrk_requests ld cfg pReent incrs (initial_state ld)) in
  0 <= fordblks (mallinfo s) <= total incrs ->
  xPortGetFreeHeapSize mallinfo s
    = (Returned (fordblks (mallinfo s) + (HEAP_SIZE ld - total incrs)), s) /\
  0 <= fordblks (mallinfo s) + (HEAP_SIZE ld - total incrs) <= HEAP_SIZE ld.
Proof.
  intros Hok Hnn Hsum s Hf.
  pose proof Hok as (H0 & H1 & H2 & H3).
  destruct (room_left_int_requests ld cfg pReent incrs Hok) as [Hr _].
  destruct (requests_all_granted ld cfg pReent incrs H2 (initial_state ld)) as [_ Hc].
  { simpl. apply nonneg_all_fit; [exact H0 | exact Hnn | lia]. }
  fold s in Hr, Hc. simpl in Hc.
  unfold xPortGetFreeHeapSize, ret. rewrite Hr, Hc.
  rewrite uint_wrap_add_int_wrap.
  rewrite uint_wrap_id by (unfold UINTPTR_MAX in *; lia).
  split; [f_equal; f_equal; lia | lia].
Qed.

Lemma free_heap_size_within_region_witness :
  let mi := fun _ : State => mkMallinfo 40 in
  let s := final (sbrk_requests sdram_32m default_build 0 [100; 0; 28]
                    (initial_state sdram_32m)) in
  xPortGetFreeHeapSize mi s = (Returned (40 + (33554432 - 128)), s) /\
  0 <= 40 + (33554432 - 128) <= 33554432.
Proof.
  apply (free_heap_size_within_region sdram_32m default_build
           (fun _ : State => mkMallinfo 40) 0 [100; 0; 28]);
    [by_evaluation | repeat constructor; by_evaluation
    | by_evaluation | by_evaluation].
Defined.

(** ** The limit, whatever the layout *)

(** No call moves the heap end past [&__HeapLimit]: from a heap end at or
    below the limit, any run of requests -- any increments, any build, any
    placement of the region -- ends with the heap end at or below the
    limit. *)
Theorem heap_end_never_passes_limit (ld : LinkerSymbols) (cfg : BuildConfig)
    (pReent : Z) (incrs : list Z) (s : State) :
  currentHeapEnd s <= __HeapLimit ld ->
  currentHeapEnd (final (sbrk_requests ld cfg pReent incrs s)) <= __HeapLimit ld.
Proof.
  intros H0.
  apply (sbrk_requests_invariant ld cfg pReent
           (fun s' => currentHeapEnd s' <= __HeapLimit ld)); [| exact H0].
  intros incr s0 _ Hs0.
  destruct (sbrk_r_cases ld incr s0) as [H | H].
  - destruct (sbrk_r_granted ld cfg pReent incr s0 H) as (_ & C & _).
    rewrite C. exact H.
  - destruct (sbrk_r_refused ld cfg pReent incr s0 H) as (_ & C & _).
    rewrite C. exact Hs0.
Qed.

Lemma heap_end_never_passes_limit_witness :
  currentHeapEnd
    (final (sbrk_requests sram_4k hook_build 0 [4000; 200; -5000; 96; 2147483647]
              (initial_state sram_4k)))
  <= __HeapLimit sram_4k.
Proof.
  apply (heap_end_never_passes_limit sram_4k hook_build 0
           [4000; 200; -5000; 96; 2147483647] (initial_state sram_4k)).
  by_evaluation.
Defined.

Lemma previous_ends_in_region (base limit : Z) (incrs : list Z) :
  forall start, base <= start ->
  Forall (fun incr => 0 <= incr) incrs ->
  start + total incrs <= limit ->
  Forall2 (fun p incr => base <= p /\ p + incr <= limit)
          (previous_ends start incrs) incrs.
Proof.
  induction incrs as [| d rest IH]; intros start Hs Hnn Hsum; [constructor |].
  inversion Hnn as [| ? ? Hd Hrest]; subst. simpl in Hsum.
  pose proof (total_nonneg rest Hrest).
  simpl. constructor; [lia | apply IH; [lia | assumption | lia]].
Qed.

(** Every block handed out lies inside the region: for non-negative
    requests whose sum fits, each call returns a pointer [p] with
    [&__HeapBase <= p] and [p + incr <= &__HeapLimit]. *)
Theorem granted_blocks_lie_in_region (ld : LinkerSymbols) (cfg : BuildConfig)
    (pReent : Z) (incrs : list Z) :
  linker_ok ld ->
  Forall (fun incr => 0 <= incr) incrs ->
  total incrs <= HEAP_SIZE ld ->
  exists ps,
    result (sbrk_requests ld cfg pReent incrs (initial_state ld)) = Returned ps /\
    Forall2 (fun p incr => __HeapBase ld <= p /\ p + incr <= __HeapLimit ld)
            ps incrs.
Proof.
  intros (H0 & H1 & H2 & H3) Hnn Hsum.
  exists (previous_ends (__HeapBase ld) incrs). split.
  - apply (requests_all_granted ld cfg pReent incrs H2 (initial_state ld)).
    simpl. apply nonneg_all_fit; [exact H0 | exact Hnn | lia].
  - apply previous_ends_in_region; [lia | exact Hnn | lia].
Qed.

Lemma granted_blocks_lie_in_region_witness :
  exists ps,
    result (sbrk_requests sram_4k default_build 0 [100; 0; 3996]
              (initial_state sram_4k)) = Returned ps /\
    Forall2 (fun p incr => __HeapBase sram_4k <= p /\ p + incr <= __HeapLimit sram_4k)
            ps [100; 0; 3996].
Proof.
  apply (granted_blocks_lie_in_region sram_4k default_build 0 [100; 0; 3996]);
    [by_evaluation | repeat constructor; by_evaluation | by_evaluation].
Defined.

(** ** The two locks together *)

(** From a task, the environment lock taken around the allocator lock (as
    when setenv allocates): both acquisitions return, releasing the inner
    lock leaves the scheduler suspended for the outer one, and releasing
    the outer one restores the caller's suspension depth. *)
Theorem env_lock_around_malloc_lock (reent : Z) (s : State) :
  insideInterrupt s = false ->
  let inner := (__env_lock ;; __malloc_lock reent ;; __malloc_unlock reent) s in
  let outer := (__env_lock ;; __malloc_lock reent ;; __malloc_unlock reent ;;
                __env_unlock) s in
  result inner = Returned tt /\
  uxSchedulerSuspended (final inner) = S (uxSchedulerSuspended s) /\
  result outer = Returned tt /\
  uxSchedulerSuspended (final outer) = uxSchedulerSuspended s.
Proof.
  intros Hctx inner outer. subst inner outer.
  unfold __env_lock, __env_unlock, __malloc_lock, __malloc_unlock,
    xPortIsInsideInterrupt, configASSERT, vTaskSuspendAll, xTaskResumeAll,
    bind, gets, modify, ret, result, final.
  simpl. rewrite Hctx. simpl. auto.
Qed.

Lemma env_lock_around_malloc_lock_witness :
  let s := initial_state sram_4k in
  let inner := (__env_lock ;; __malloc_lock 0 ;; __malloc_unlock 0) s in
  let outer := (__env_lock ;; __malloc_lock 0 ;; __malloc_unlock 0 ;;
                __env_unlock) s in
  result inner = Returned tt /\
  uxSchedulerSuspended (final inner) = 1%nat /\
  result outer = Returned tt /\
  uxSchedulerSuspended (final outer) = O.
Proof.
  apply (env_lock_around_malloc_lock 0 (initial_state sram_4k)).
  reflexivity.
Defined.
